(** * Space Looter: the local development server [serve.py]

    [serve.py] is a forty-line script.  It subclasses the standard
    library's [http.server.SimpleHTTPRequestHandler] to add two
    cross-origin isolation headers to every header block, changes the
    working directory to the directory of the script, binds a
    [socketserver.TCPServer] on port 8080, prints four status lines,
    tries to open a browser and serves until it is interrupted.

    The development has three parts:
    - [Py]: the Python values and builtins the script uses (byte
      strings, the substring test [in], [str] of an integer, the
      exceptions and their classes);
    - [Http]: the request handler, with the inherited methods the
      override calls and the open recursion through [self];
    - [Serve]: the module-level statements of the script as a program
      in a small state-and-exception monad, run against a [World] that
      answers the calls into the operating system and the libraries. *)

From Stdlib Require Import String Ascii List ZArith Bool Lia DecimalString.
Import ListNotations.
Local Open Scope list_scope.
Local Open Scope string_scope.

(** Method calls in source order: [h |> f |> g] is [self.f(); self.g()]. *)
Notation "x |> f" := (f x) (at level 45, left associativity, only parsing).

(* ================================================================= *)
(** ** Python values and builtins *)

Module Py.

(** [b"\r\n"] and ["\n"]. *)
Definition CRLF : string := String "013" (String "010" EmptyString).
Definition LF : string := String "010" EmptyString.

(** [str(n)] and the [{n}] of an f-string, for an [int]. *)
Definition str_int (n : Z) : string := NilZero.string_of_int (Z.to_int n).

(** [len(b)]. *)
Definition len (b : string) : Z := Z.of_nat (String.length b).

(** [sub in s] on strings: [sub] occurs in [s] at some offset. *)
Fixpoint contains (sub s : string) : bool :=
  if String.prefix sub s then true
  else match s with
       | EmptyString => false
       | String _ rest => contains sub rest
       end.

(** What [in] decides: [s] is some text, then [sub], then some text. *)
Definition occurs_in (sub s : string) : Prop :=
  exists before after, s = before ++ sub ++ after.

(** [s.lower()], on the ASCII letters. *)
Definition lower_ascii (c : ascii) : ascii :=
  let n := nat_of_ascii c in
  if (65 <=? n)%nat && (n <=? 90)%nat then ascii_of_nat (n + 32) else c.

Fixpoint lower (s : string) : string :=
  match s with
  | EmptyString => EmptyString
  | String c rest => String (lower_ascii c) (lower rest)
  end.

(** The exceptions the script can meet.  [KeyboardInterrupt] and
    [SystemExit] derive from [BaseException] only; [OSError] (with its
    subclasses) derives from [Exception]; [Exception name] stands for an
    instance of any other class, which no clause of the script names.
    An [OSError] is kept with its [str(e)]. *)
Inductive exn : Type :=
| KeyboardInterrupt
| SystemExit (code : Z)
| OSError (msg : string)
| Exception (name : string).

(** [isinstance(e, KeyboardInterrupt)], [isinstance(e, OSError)]. *)
Definition is_KeyboardInterrupt (e : exn) : bool :=
  match e with KeyboardInterrupt => true | _ => false end.

Definition is_OSError (e : exn) : bool :=
  match e with OSError _ => true | _ => false end.

(** [str(e)]. *)
Definition str (e : exn) : string :=
  match e with
  | KeyboardInterrupt => ""
  | SystemExit code => str_int code
  | OSError msg => msg
  | Exception name => name
  end.

End Py.

(* ================================================================= *)
(** ** The request handler *)

Module Http.
Import Py.

(** The attributes of a handler instance that the methods below read
    or write: the parsed request line, the served directory, the
    pending header lines, the connection flag and the bytes written to
    the client so far. *)
Record handler : Type := mkHandler {
  path : string;
  request_version : string;
  directory : string;
  headers_buffer : list string;
  close_connection : bool;
  wfile : string
}.

Definition set_headers_buffer (b : list string) (h : handler) : handler :=
  mkHandler (path h) (request_version h) (directory h) b
            (close_connection h) (wfile h).

Definition set_close_connection (c : bool) (h : handler) : handler :=
  mkHandler (path h) (request_version h) (directory h) (headers_buffer h)
            c (wfile h).

(** [self.wfile.write(data)]. *)
Definition wfile_write (data : string) (h : handler) : handler :=
  mkHandler (path h) (request_version h) (directory h) (headers_buffer h)
            (close_connection h) (wfile h ++ data).

(** One header line as it goes on the wire: ["%s: %s\r\n"]. *)
Definition header_line (keyword value : string) : string :=
  keyword ++ ": " ++ value ++ CRLF.

(** The status line: ["%s %d %s\r\n"] of the protocol version
    (["HTTP/1.0"], the handler's default), the code and the message. *)
Definition status_line (code : Z) (message : string) : string :=
  "HTTP/1.0 " ++ str_int code ++ " " ++ message ++ CRLF.

(** [BaseHTTPRequestHandler.send_header], inherited unchanged: the line
    is buffered unless the request was an HTTP/0.9 simple request, and
    a [Connection] header sets the connection flag. *)
Definition send_header (keyword value : string) (h : handler) : handler :=
  let h1 :=
    if request_version h =? "HTTP/0.9" then h
    else set_headers_buffer
           (headers_buffer h ++ [header_line keyword value])%list h in
  if lower keyword =? "connection" then
    if lower value =? "close" then set_close_connection true h1
    else if lower value =? "keep-alive" then set_close_connection false h1
    else h1
  else h1.

(** [BaseHTTPRequestHandler.flush_headers]: the buffered lines are
    joined, written in one piece and the buffer is emptied. *)
Definition flush_headers (h : handler) : handler :=
  h |> wfile_write (String.concat "" (headers_buffer h))
    |> set_headers_buffer [].

(** [BaseHTTPRequestHandler.end_headers], the method [super()] reaches:
    the blank line that ends the header block, then the flush. *)
Definition base_end_headers (h : handler) : handler :=
  if request_version h =? "HTTP/0.9" then h
  else h |> set_headers_buffer (headers_buffer h ++ [CRLF])%list
         |> flush_headers.

(** A handler class, as far as the script can tell two classes apart:
    by the [end_headers] a call through [self] reaches. *)
Record RequestHandlerClass : Type := mkClass {
  end_headers : handler -> handler
}.

Definition SimpleHTTPRequestHandler : RequestHandlerClass :=
  mkClass base_end_headers.

(** [[
class CORSRequestHandler(http.server.SimpleHTTPRequestHandler):
    def end_headers(self):
        self.send_header('Cross-Origin-Embedder-Policy', 'require-corp')
        self.send_header('Cross-Origin-Opener-Policy', 'same-origin')
        super().end_headers()
]] *)
Definition CORSRequestHandler : RequestHandlerClass :=
  mkClass (fun self =>
    self |> send_header "Cross-Origin-Embedder-Policy" "require-corp"
         |> send_header "Cross-Origin-Opener-Policy" "same-origin"
         |> end_headers SimpleHTTPRequestHandler).

(** *** Serving a request

    The methods below belong to the standard library, not to this
    repository; they are kept to the shape the specification gives the
    file-serving capability: a request has a path, the answer is the
    file under the root directory or the standard not-found response.
    What the specification leaves to the library (directory listings
    and redirects, conditional requests, methods other than GET) is
    not part of the model. *)

(** Modelled from the spec: what the inherited file server reads from
    the platform ("path traversal prevention and MIME-type inference
    are provided by the underlying file-serving capability").
    [open_rb p] is the content of the readable file at [p], or [None]
    when opening it raises [OSError]. *)
Record Env : Type := mkEnv {
  version_string : string;
  date_time_string : string;
  translate_path : string -> string -> string;
  guess_type : string -> string;
  open_rb : string -> option string;
  last_modified : string -> string;
  error_page : Z -> string -> string
}.

(** Modelled from the spec: "an HTTP request with a path"; the version
    is the one of the request line (["HTTP/0.9"] when it gives none). *)
Record request : Type := mkRequest {
  target : string;
  version : string
}.

(** Modelled from the spec: the status line, [send_response_only] of
    the inherited handler, with [protocol_version = "HTTP/1.0"]. *)
Definition send_response_only (code : Z) (message : string) (h : handler)
  : handler :=
  if request_version h =? "HTTP/0.9" then h
  else set_headers_buffer
         (headers_buffer h ++ [status_line code message])%list h.

(** Modelled from the spec: [send_response], the status line and the
    "standard file-serving headers" every response starts with. *)
Definition send_response (env : Env) (code : Z) (message : string)
  (h : handler) : handler :=
  h |> send_response_only code message
    |> send_header "Server" (version_string env)
    |> send_header "Date" (date_time_string env).

(** Modelled from the spec: [send_error], the "standard
    not-found/error response".  It ends its header block through
    [self], so a subclass's [end_headers] runs. *)
Definition send_error (cls : RequestHandlerClass) (env : Env) (code : Z)
  (message : string) (h : handler) : handler :=
  let body := error_page env code message in
  h |> send_response env code message
    |> send_header "Connection" "close"
    |> send_header "Content-Type" "text/html;charset=utf-8"
    |> send_header "Content-Length" (str_int (len body))
    |> end_headers cls
    |> wfile_write body.

(** Modelled from the spec: [send_head] of the inherited file server,
    "standard path-to-file mapping and standard status codes": the
    request path is mapped under the served directory; a file that
    opens is announced with 200, anything else is answered 404. *)
Definition send_head (cls : RequestHandlerClass) (env : Env) (h : handler)
  : handler * option string :=
  let p := translate_path env (directory h) (path h) in
  match open_rb env p with
  | None => (send_error cls env 404 "File not found" h, None)
  | Some f =>
      (h |> send_response env 200 "OK"
         |> send_header "Content-type" (guess_type env p)
         |> send_header "Content-Length" (str_int (len f))
         |> send_header "Last-Modified" (last_modified env p)
         |> end_headers cls,
       Some f)
  end.

(** Modelled from the spec: [do_GET], "output: the corresponding
    file's contents": the head, then the file copied to the client. *)
Definition do_GET (cls : RequestHandlerClass) (env : Env) (h : handler)
  : handler :=
  match send_head cls env h with
  | (h', Some f) => wfile_write f h'
  | (h', None) => h'
  end.

(** Modelled from the spec: one request handled to completion by a
    fresh handler instance of class [cls] serving [dir]; the result is
    everything written to the client. *)
Definition handle_one_request (cls : RequestHandlerClass) (env : Env)
  (dir : string) (req : request) : string :=
  wfile (do_GET cls env (mkHandler (target req) (version req) dir [] true "")).

(** *** Reading a response

    The message format the theorems are stated in: status line, header
    lines, blank line, body. *)
Record response : Type := mkResponse {
  status : Z;
  reason : string;
  headers : list (string * string);
  body : string
}.

Definition header_of (kv : string * string) : string :=
  header_line (fst kv) (snd kv).

Definition render (r : response) : string :=
  String.concat ""
    (status_line (status r) (reason r) :: map header_of (headers r) ++ [CRLF])%list
  ++ body r.

(** The two isolation headers, as a client reads them. *)
Definition isolation_headers : list (string * string) :=
  [("Cross-Origin-Embedder-Policy", "require-corp");
   ("Cross-Origin-Opener-Policy", "same-origin")].

(** [r] with [extra] at the end of its header block. *)
Definition add_headers (extra : list (string * string)) (r : response)
  : response :=
  mkResponse (status r) (reason r) (headers r ++ extra)%list (body r).

(** The response of the file server by itself, in the words of the
    specification: the file's contents with status 200 when the path
    resolves to a readable file, the standard not-found response
    otherwise, each under the standard file-serving headers.  The
    handler's output is compared with it. *)
Definition standard_response (env : Env) (dir : string) (req : request)
  : response :=
  let p := translate_path env dir (target req) in
  match open_rb env p with
  | Some f =>
      mkResponse 200 "OK"
        [("Server", version_string env);
         ("Date", date_time_string env);
         ("Content-type", guess_type env p);
         ("Content-Length", str_int (len f));
         ("Last-Modified", last_modified env p)]
        f
  | None =>
      let page := error_page env 404 "File not found" in
      mkResponse 404 "File not found"
        [("Server", version_string env);
         ("Date", date_time_string env);
         ("Connection", "close");
         ("Content-Type", "text/html;charset=utf-8");
         ("Content-Length", str_int (len page))]
        page
  end.

(** The invariant the header methods keep while a response is being
    built for a request that gets a header block: [lines] are pending
    in the buffer and [sent] has been written. *)
Definition pending (h : handler) (lines : list string) (sent : string) : Prop :=
  request_version h <> "HTTP/0.9"
  /\ headers_buffer h = lines
  /\ wfile h = sent.

(** A class whose [end_headers] closes a header block with the lines
    of [extra] put before the blank line. *)
Definition closes_with (cls : RequestHandlerClass)
  (extra : list (string * string)) : Prop :=
  forall h lines sent,
    pending h lines sent ->
    pending (end_headers cls h) []
            (sent ++ String.concat "" (lines ++ map header_of extra ++ [CRLF])%list).

End Http.

(* ================================================================= *)
(** ** The script *)

Module Serve.
Import Py Http.

(** What the process does that can be seen from outside, in order. *)
Inductive event : Type :=
| EChdir (dir : string)
| EListen (address : string * Z)
| EPrint (line : string)
| EBrowser (url : string)
| EServe
| ESend (req : request) (bytes : string)
| EClose.

(** Everything the script does not decide itself: how it was started,
    where the program file lies ([script_dir] is
    [os.path.dirname(os.path.abspath(__file__))]), how each call into
    the operating system or a library ends ([None]: it returns), which
    requests arrive, and the exception that ends the serving loop
    ([serve_result] is [None] when nothing ever does). *)
Record World : Type := mkWorld {
  argv : list string;
  environ : list (string * string);
  initial_cwd : string;
  script_dir : string;
  chdir_result : string -> option exn;
  bind_result : string * Z -> option exn;
  browser_result : string -> option exn;
  incoming : list request;
  serve_result : option exn;
  http_env : Env
}.

(** The state of the process: working directory, the listening socket
    if one is open, and the events so far. *)
Record process : Type := mkProcess {
  cwd : string;
  socket : option (string * Z);
  log : list event
}.

Definition emit (e : event) (p : process) : process :=
  mkProcess (cwd p) (socket p) (log p ++ [e])%list.

(** A statement returns, raises, or never comes back. *)
Inductive result (A : Type) : Type :=
| Return (a : A)
| Raise (e : exn)
| Diverge.
Arguments Return {A} a.
Arguments Raise {A} e.
Arguments Diverge {A}.

Definition M (A : Type) : Type := process -> result A * process.

Definition ret {A} (a : A) : M A := fun p => (Return a, p).

Definition raise {A} (e : exn) : M A := fun p => (Raise e, p).

Definition bind {A B} (c : M A) (k : A -> M B) : M B :=
  fun p =>
    match c p with
    | (Return a, p') => k a p'
    | (Raise e, p') => (Raise e, p')
    | (Diverge, p') => (Diverge, p')
    end.

Notation "x <- c ;; k" := (bind c (fun x => k))
  (at level 61, c at next level, right associativity).
Notation "c ;; k" := (bind c (fun _ => k))
  (at level 61, right associativity).

(** One [except] clause: the class test and the handler's body. *)
Definition clause (A : Type) : Type := ((exn -> bool) * (exn -> M A))%type.

(** The clauses are tried in order; an exception none matches goes on. *)
Fixpoint dispatch {A} (e : exn) (clauses : list (clause A)) : M A :=
  match clauses with
  | [] => raise e
  | (matches, handler) :: rest =>
      if matches e then handler e else dispatch e rest
  end.

(** [try: body / except ...]: an exception raised inside a handler is
    not offered to the sibling clauses. *)
Definition try_except {A} (body : M A) (clauses : list (clause A)) : M A :=
  fun p =>
    match body p with
    | (Raise e, p') => dispatch e clauses p'
    | r => r
    end.

(** A bare [except:] matches every exception. *)
Definition bare : exn -> bool := fun _ => true.

(** [with ctor as x: body]: [__exit__] runs when the body returns or
    raises, and does not suppress the exception. *)
Definition with_ {R A} (ctor : M R) (exit : R -> M unit) (body : R -> M A)
  : M A :=
  x <- ctor ;;
  fun p =>
    match body x p with
    | (Return a, p') => (exit x ;; ret a) p'
    | (Raise e, p') => (exit x ;; raise e) p'
    | (Diverge, p') => (Diverge, p')
    end.

(** [print(line)].  The terminal is taken to accept the text: a
    [stdout] that cannot encode it would make [print] raise, and that
    is not part of the model. *)
Definition print (line : string) : M unit :=
  fun p => (Return tt, emit (EPrint line) p).

(** [sys.exit(code)]. *)
Definition sys_exit {A} (code : Z) : M A := raise (SystemExit code).

(** [os.chdir(dir)] and [os.getcwd()].  The working directory is named
    as [os.chdir] was given it: the path of the script is taken to
    hold no symbolic link, which [os.getcwd()] would resolve. *)
Definition os_chdir (w : World) (dir : string) : M unit :=
  fun p =>
    match chdir_result w dir with
    | Some e => (Raise e, p)
    | None => (Return tt, emit (EChdir dir) (mkProcess dir (socket p) (log p)))
    end.

Definition os_getcwd : M string := fun p => (Return (cwd p), p).

(** A server object: its address and its handler class. *)
Record server : Type := mkServer {
  server_address : string * Z;
  handler_class : RequestHandlerClass
}.

(** [socketserver.TCPServer(address, cls)]: the constructor binds and
    listens; when that raises, it calls [server_close()] on the socket
    it had created and raises again, so no socket is left behind. *)
Definition TCPServer (w : World) (address : string * Z)
  (cls : RequestHandlerClass) : M server :=
  fun p =>
    match bind_result w address with
    | Some e => (Raise e, emit EClose (mkProcess (cwd p) None (log p)))
    | None => (Return (mkServer address cls),
               emit (EListen address) (mkProcess (cwd p) (Some address) (log p)))
    end.

(** [TCPServer.__exit__], that is [server_close()]. *)
Definition server_close (httpd : server) : M unit :=
  fun p => (Return tt, emit EClose (mkProcess (cwd p) None (log p))).

(** [webbrowser.open(url)]. *)
Definition webbrowser_open (w : World) (url : string) : M bool :=
  fun p =>
    match browser_result w url with
    | Some e => (Raise e, emit (EBrowser url) p)
    | None => (Return true, emit (EBrowser url) p)
    end.

(** Modelled from the spec: [serve_forever] of the standard library's
    server, "single listening loop, handling one request at a time to
    completion before accepting the next", with "no termination
    condition other than external interrupt or fatal error".  Each
    request gets a handler of the server's class, which serves the
    working directory. *)
Definition serve_forever (w : World) (httpd : server) : M unit :=
  fun p =>
    let answer req :=
      ESend req (handle_one_request (handler_class httpd) (http_env w) (cwd p) req) in
    let p' := mkProcess (cwd p) (socket p)
                (log p ++ EServe :: map answer (incoming w))%list in
    match serve_result w with
    | Some e => (Raise e, p')
    | None => (Diverge, p')
    end.

Definition PORT : Z := 8080.

(** The module-level statements of [serve.py], lines 20 to 45. *)
Definition script (w : World) : M unit :=
  os_chdir w (script_dir w) ;;
  try_except
    (with_ (TCPServer w ("", PORT) CORSRequestHandler) server_close
       (fun httpd =>
          print ("🌐 Server starting at http://localhost:" ++ str_int PORT) ;;
          here <- os_getcwd ;;
          print ("📁 Serving files from: " ++ here) ;;
          print ("🎮 Open http://localhost:" ++ str_int PORT
                 ++ " in your browser to play!") ;;
          print "⏹️  Press Ctrl+C to stop the server" ;;
          try_except
            (_ <- webbrowser_open w ("http://localhost:" ++ str_int PORT) ;;
             ret tt)
            [(bare, fun _ => ret tt)] ;;
          serve_forever w httpd))
    [(is_KeyboardInterrupt,
      fun _ => print (LF ++ "🛑 Server stopped.") ;; sys_exit 0);
     (is_OSError,
      fun e =>
        if contains "Address already in use" (str e) then
          print ("❌ Port " ++ str_int PORT
                 ++ " is already in use. Try a different port or stop the existing server.") ;;
          sys_exit 1
        else raise e)].

(** How the process ends. *)
Inductive termination : Type :=
| Exited (code : Z)
| Traceback (e : exn)
| Running.

(** The interpreter around the script: falling off the end exits with
    0, [SystemExit] exits with its code, any other exception that
    reaches the top is reported by the interpreter, and a script that
    never comes back leaves the process running. *)
Definition terminate {A} (r : result A) : termination :=
  match r with
  | Return _ => Exited 0
  | Raise (SystemExit code) => Exited code
  | Raise e => Traceback e
  | Diverge => Running
  end.

Definition initial (w : World) : process := mkProcess (initial_cwd w) None [].

Definition run (w : World) : termination * process :=
  let (r, p) := script w (initial w) in (terminate r, p).

(** The same world with one answer changed. *)
Definition with_cli (args : list string) (vars : list (string * string))
  (w : World) : World :=
  mkWorld args vars (initial_cwd w) (script_dir w) (chdir_result w)
          (bind_result w) (browser_result w) (incoming w) (serve_result w)
          (http_env w).

Definition with_bind (r : option exn) (w : World) : World :=
  mkWorld (argv w) (environ w) (initial_cwd w) (script_dir w) (chdir_result w)
          (fun _ => r) (browser_result w) (incoming w) (serve_result w)
          (http_env w).

Definition with_browser (r : option exn) (w : World) : World :=
  mkWorld (argv w) (environ w) (initial_cwd w) (script_dir w) (chdir_result w)
          (bind_result w) (fun _ => r) (incoming w) (serve_result w)
          (http_env w).

Definition with_serve (r : option exn) (w : World) : World :=
  mkWorld (argv w) (environ w) (initial_cwd w) (script_dir w) (chdir_result w)
          (bind_result w) (browser_result w) (incoming w) r (http_env w).

(** *** Reading a run

    The shapes the theorems are stated in. *)

(** What was printed, in order. *)
Fixpoint stdout (t : list event) : list string :=
  match t with
  | [] => []
  | EPrint line :: rest => line :: stdout rest
  | _ :: rest => stdout rest
  end.

(** The two messages of the [except] clauses, as they reach the
    terminal. *)
Definition stop_notice : string := LF ++ "🛑 Server stopped.".

Definition port_diagnostic : string :=
  "❌ Port 8080 is already in use. Try a different port or stop the existing server.".

(** A start that gets as far as the serving loop: the directory, the
    listener, the four status lines, the browser, the loop. *)
Definition banner (w : World) : list event :=
  [EChdir (script_dir w);
   EListen ("", 8080%Z);
   EPrint "🌐 Server starting at http://localhost:8080";
   EPrint ("📁 Serving files from: " ++ script_dir w);
   EPrint "🎮 Open http://localhost:8080 in your browser to play!";
   EPrint "⏹️  Press Ctrl+C to stop the server";
   EBrowser "http://localhost:8080";
   EServe].

(** The answers to the requests of [w], each from [CORSRequestHandler]
    serving the directory of the script. *)
Definition answers (w : World) : list event :=
  map (fun req =>
         ESend req (handle_one_request CORSRequestHandler (http_env w)
                                       (script_dir w) req))
      (incoming w).

(** Both steps before the [with] block's body succeed. *)
Definition starts (w : World) : Prop :=
  chdir_result w (script_dir w) = None /\ bind_result w ("", PORT) = None.

(** The message of [e] is the one line 41 looks for. *)
Definition port_in_use (e : exn) : bool :=
  match e with
  | OSError msg => contains "Address already in use" msg
  | _ => false
  end.

(** The two failures the script recognises. *)
Definition recognised (e : exn) : bool := is_KeyboardInterrupt e || port_in_use e.

(** [e] is raised by one of the steps of the start: changing the
    directory, binding the listener, launching the browser. *)
Definition raised_at_startup (w : World) (e : exn) : Prop :=
  chdir_result w (script_dir w) = Some e
  \/ (chdir_result w (script_dir w) = None /\ bind_result w ("", PORT) = Some e)
  \/ (starts w /\ browser_result w "http://localhost:8080" = Some e).

(** The same without the browser launch. *)
Definition raised_before_listening (w : World) (e : exn) : Prop :=
  chdir_result w (script_dir w) = Some e
  \/ (chdir_result w (script_dir w) = None /\ bind_result w ("", PORT) = Some e).

(** An [OSError] with message [msg] reaches the [except OSError]
    clause: it is raised inside the outer [try], by the constructor or
    by the serving loop. *)
Definition caught_OSError (w : World) (msg : string) : Prop :=
  chdir_result w (script_dir w) = None
  /\ (bind_result w ("", PORT) = Some (OSError msg)
      \/ (bind_result w ("", PORT) = None /\ serve_result w = Some (OSError msg))).

(** What the two [except] clauses of the outer [try] make of [e],
    in closed form. *)
Definition handled (e : exn) (p : process) : result unit * process :=
  match e with
  | KeyboardInterrupt => (Raise (SystemExit 0), emit (EPrint stop_notice) p)
  | OSError msg =>
      if contains "Address already in use" msg
      then (Raise (SystemExit 1), emit (EPrint port_diagnostic) p)
      else (Raise e, p)
  | _ => (Raise e, p)
  end.

Definition is_chdir (e : event) : bool :=
  match e with EChdir _ => true | _ => false end.
Definition is_listen (e : event) : bool :=
  match e with EListen _ => true | _ => false end.
Definition is_browser (e : event) : bool :=
  match e with EBrowser _ => true | _ => false end.
Definition is_serve (e : event) : bool :=
  match e with EServe => true | _ => false end.
Definition is_send (e : event) : bool :=
  match e with ESend _ _ => true | _ => false end.

(** In [t], every event of kind [after] has one of kind [before]
    earlier in the log. *)
Definition precedes (before after : event -> bool) (t : list event) : Prop :=
  forall pre e post,
    t = (pre ++ e :: post)%list -> after e = true -> existsb before pre = true.

(** The same world, started from the directory [dir]. *)
Definition with_initial_cwd (dir : string) (w : World) : World :=
  mkWorld (argv w) (environ w) dir (script_dir w) (chdir_result w)
          (bind_result w) (browser_result w) (incoming w) (serve_result w)
          (http_env w).

(** The four lines of lines 25 to 28, for a server in [dir]. *)
Definition status_lines (dir : string) : list string :=
  ["🌐 Server starting at http://localhost:8080";
   "📁 Serving files from: " ++ dir;
   "🎮 Open http://localhost:8080 in your browser to play!";
   "⏹️  Press Ctrl+C to stop the server"].

Definition is_close (e : event) : bool :=
  match e with EClose => true | _ => false end.

End Serve.

(* ================================================================= *)
(** ** Sample worlds *)

Module Sample.
Import Py Http Serve.

(** A checkout in [/srv/game] holding one file, [index.html]. *)
Definition env : Env :=
  mkEnv "SimpleHTTP/0.6 Python/3.12.3"
        "Tue, 03 Nov 2026 10:00:00 GMT"
        (fun dir url => dir ++ url)
        (fun _ => "text/html")
        (fun p => if p =? "/srv/game/index.html"
                  then Some "<html>Space Looter</html>" else None)
        (fun _ => "Mon, 02 Nov 2026 09:30:00 GMT")
        (fun code message => "<h1>" ++ str_int code ++ " " ++ message ++ "</h1>").

Definition index_html : request := mkRequest "/index.html" "HTTP/1.1".
Definition missing : request := mkRequest "/does-not-exist.xyz" "HTTP/1.1".

(** Every call succeeds, two requests arrive, nobody interrupts. *)
Definition quiet : World :=
  mkWorld ["serve.py"] [] "/home/dev" "/srv/game"
          (fun _ => None) (fun _ => None) (fun _ => None)
          [index_html; missing] None env.

(** The same session, ended with Ctrl+C. *)
Definition interrupted : World := with_serve (Some KeyboardInterrupt) quiet.

(** A second instance on Linux: the port is taken. *)
Definition port_taken : World :=
  with_bind (Some (OSError "[Errno 98] Address already in use")) quiet.

(** Binding refused for another reason. *)
Definition port_denied : World :=
  with_bind (Some (OSError "[Errno 13] Permission denied")) quiet.

(** No browser can be started. *)
Definition no_browser : World :=
  with_browser (Some (Exception "webbrowser.Error")) quiet.

(** The checkout was moved away: the directory change fails. *)
Definition no_directory : World :=
  mkWorld ["serve.py"] [] "/home/dev" "/srv/game"
          (fun _ => Some (OSError "[Errno 2] No such file or directory"))
          (fun _ => None) (fun _ => None) [index_html] None env.

(** Ctrl+C while the listener is being set up. *)
Definition interrupted_early : World := with_bind (Some KeyboardInterrupt) quiet.

(** The serving loop is ended by an error of the operating system. *)
Definition loop_broken : World :=
  with_serve (Some (OSError "[Errno 9] Bad file descriptor")) quiet.

(** A client that sends the request line of HTTP/0.9, with no
    protocol version, for the file and for a path that is not there. *)
Definition simple_get : request := mkRequest "/index.html" "HTTP/0.9".
Definition simple_missing : request := mkRequest "/does-not-exist.xyz" "HTTP/0.9".

Definition old_client : World :=
  mkWorld ["serve.py"] [] "/home/dev" "/srv/game"
          (fun _ => None) (fun _ => None) (fun _ => None)
          [simple_get] None env.

(** A second instance on Windows: the port is taken, and the system
    says so in its own words. *)
Definition port_taken_windows : World :=
  with_bind
    (Some (OSError "[WinError 10048] Only one usage of each socket address (protocol/network address/port) is normally permitted"))
    quiet.

End Sample.

(* ================================================================= *)
(** * Properties *)

Import Py Http Serve.

(* ----------------------------------------------------------------- *)
(** ** The substring test *)

Section Substring.
Variable sub : string.

Lemma prefix_append (rest : string) : String.prefix sub (sub ++ rest) = true.
Proof.
  induction sub as [|c sub' IH]; simpl.
  - now destruct rest.
  - destruct (ascii_dec c c) as [_|ne]; [exact IH | now elim ne].
Qed.

Lemma prefix_split (s : string) :
  String.prefix sub s = true -> exists rest, s = sub ++ rest.
Proof.
  revert s. induction sub as [|c sub' IH]; intros s H.
  - now exists s.
  - destruct s as [|d s']; simpl in H; [discriminate|].
    destruct (ascii_dec c d) as [->|_]; [|discriminate].
    destruct (IH s' H) as [rest ->]. now exists rest.
Qed.

Lemma contains_prefix (s : string) :
  String.prefix sub s = true -> contains sub s = true.
Proof. destruct s; cbn [contains]; now intros ->. Qed.

Lemma contains_occurrence (before after : string) :
  contains sub (before ++ sub ++ after) = true.
Proof.
  induction before as [|c before' IH]; cbn [append contains].
  - apply contains_prefix, prefix_append.
  - rewrite IH. now destruct (String.prefix sub _).
Qed.

Lemma contains_split (s : string) :
  contains sub s = true -> exists before after, s = before ++ sub ++ after.
Proof.
  induction s as [|c s' IH]; cbn [contains].
  - destruct (String.prefix sub "") eqn:P; [|discriminate]. intros _.
    destruct (prefix_split _ P) as [rest E]. now exists "", rest.
  - destruct (String.prefix sub (String c s')) eqn:P.
    + intros _. destruct (prefix_split _ P) as [rest E]. now exists "", rest.
    + intros H. destruct (IH H) as (before & after & ->).
      now exists (String c before), after.
Qed.

(** [contains] is Python's [in]: an occurrence somewhere in [s]. *)
Lemma contains_iff (s : string) : contains sub s = true <-> occurs_in sub s.
Proof.
  split; [apply contains_split|].
  intros (before & after & ->). apply contains_occurrence.
Qed.

Lemma contains_false_iff (s : string) :
  contains sub s = false <-> ~ occurs_in sub s.
Proof.
  rewrite <- contains_iff. now destruct (contains sub s).
Qed.

End Substring.

(* ----------------------------------------------------------------- *)
(** ** Header blocks *)

Create HintDb header_block.

Section HeaderBlock.

Lemma version_test (h : handler) :
  request_version h <> "HTTP/0.9" -> (request_version h =? "HTTP/0.9") = false.
Proof. apply String.eqb_neq. Qed.

Lemma pending_send_response_only code message h lines sent :
  pending h lines sent ->
  pending (send_response_only code message h)
          (lines ++ [status_line code message])%list sent.
Proof.
  intros (V & B & W). unfold send_response_only.
  rewrite (version_test h V). unfold pending; cbn. now subst.
Qed.

Lemma pending_send_header keyword value h lines sent :
  pending h lines sent ->
  pending (send_header keyword value h)
          (lines ++ [header_line keyword value])%list sent.
Proof.
  intros (V & B & W). unfold send_header.
  rewrite (version_test h V).
  repeat match goal with |- context [if ?b then _ else _] => destruct b end;
    unfold pending; cbn; now subst.
Qed.

Lemma pending_wfile_write data h lines sent :
  pending h lines sent -> pending (wfile_write data h) lines (sent ++ data).
Proof. intros (V & B & W). unfold pending; cbn. now subst. Qed.

Lemma pending_base_end_headers h lines sent :
  pending h lines sent ->
  pending (base_end_headers h) []
          (sent ++ String.concat "" (lines ++ [CRLF])%list).
Proof.
  intros (V & B & W). unfold base_end_headers.
  rewrite (version_test h V). unfold pending; cbn. now subst.
Qed.

Lemma Simple_closes_plainly : closes_with SimpleHTTPRequestHandler [].
Proof. intros h lines sent P. now apply pending_base_end_headers. Qed.

Lemma CORS_closes_with_isolation :
  closes_with CORSRequestHandler isolation_headers.
Proof.
  intros h lines sent P. cbn [end_headers CORSRequestHandler].
  apply (pending_send_header "Cross-Origin-Embedder-Policy" "require-corp") in P.
  apply (pending_send_header "Cross-Origin-Opener-Policy" "same-origin") in P.
  apply pending_base_end_headers in P.
  now rewrite <- !app_assoc in P.
Qed.

End HeaderBlock.

#[local] Hint Resolve pending_send_response_only pending_send_header
  pending_wfile_write : header_block.

(** The bytes a chain of header calls has written, read off the chain. *)
Ltac written :=
  match goal with
  | |- wfile ?h = _ =>
      let Q := fresh "Q" in
      eassert (Q : pending h _ _) by (eauto 12 with header_block);
      destruct Q as (_ & _ & ->)
  end.

(** Whatever a class puts before the blank line, a response of the
    handler is the file server's response with that much added. *)
Lemma handle_one_request_renders cls extra env dir req :
  version req <> "HTTP/0.9" ->
  closes_with cls extra ->
  handle_one_request cls env dir req
  = render (add_headers extra (standard_response env dir req)).
Proof.
  intros V C.
  assert (P : pending (mkHandler (target req) (version req) dir [] true "") [] "")
    by (now split).
  unfold handle_one_request, do_GET, send_head, standard_response.
  cbn [path directory].
  destruct (open_rb env _) as [f|];
    unfold send_error, send_response; written;
    unfold render, add_headers; cbn [status reason headers body];
    now rewrite map_app.
Qed.

(** An HTTP/0.9 simple request gets the bare body: the library writes
    neither a status line nor a header block for it, so there is no
    header block to speak of. *)
Lemma simple_request_has_no_header_block env dir url :
  let req := mkRequest url "HTTP/0.9" in
  handle_one_request CORSRequestHandler env dir req
  = body (standard_response env dir req).
Proof.
  unfold handle_one_request, do_GET, send_head, standard_response.
  cbn [path directory target version].
  now destruct (open_rb env _).
Qed.

(* ----------------------------------------------------------------- *)
(** ** Logs *)

Section Logs.

Lemma stdout_app (s t : list event) : stdout (s ++ t) = (stdout s ++ stdout t)%list.
Proof.
  induction s as [|e s IH]; [reflexivity|].
  destruct e; cbn [app stdout]; now rewrite IH.
Qed.

Lemma stdout_answers (w : World) : stdout (answers w) = [].
Proof. unfold answers. now induction (incoming w). Qed.

(** Every answer in the log comes from [CORSRequestHandler] serving
    the directory of the script. *)
Lemma in_answers (w : World) (e : event) :
  In e (answers w) ->
  exists req,
    In req (incoming w)
    /\ e = ESend req (handle_one_request CORSRequestHandler (http_env w)
                                         (script_dir w) req).
Proof.
  unfold answers. intros H. apply in_map_iff in H.
  destruct H as (req & <- & I). now exists req.
Qed.

Variables before after : event -> bool.

Lemma precedes_nil : precedes before after [].
Proof. intros pre e post E. destruct pre; discriminate. Qed.

(** Nothing of kind [after] has happened up to a [before] event. *)
Lemma precedes_from (e : event) (t : list event) :
  before e = true -> after e = false -> precedes before after (e :: t).
Proof.
  intros B A pre e' post E Q.
  destruct pre as [|e0 pre]; cbn in E; inversion E; subst.
  - congruence.
  - cbn. now rewrite B.
Qed.

Lemma precedes_skip (e : event) (t : list event) :
  after e = false -> precedes before after t -> precedes before after (e :: t).
Proof.
  intros A H pre e' post E Q.
  destruct pre as [|e0 pre]; cbn in E; inversion E; subst.
  - congruence.
  - cbn. rewrite (H pre e' post eq_refl Q). apply orb_true_r.
Qed.

Lemma precedes_absent (t : list event) :
  (forall e, In e t -> after e = false) -> precedes before after t.
Proof.
  intros H pre e post -> Q.
  rewrite (H e) in Q by apply in_elt. discriminate.
Qed.

End Logs.

(** The order of a log whose head is explicit. *)
Ltac in_order :=
  repeat first
    [ apply precedes_nil
    | apply precedes_from; [reflexivity | reflexivity]
    | apply precedes_skip; [reflexivity | ] ].

(* ----------------------------------------------------------------- *)
(** ** The runs of the script, case by case *)

Section Runs.
Variable w : World.

(** The process once the constructor has given up. *)
Let refused : process :=
  mkProcess (script_dir w) None [EChdir (script_dir w); EClose].

Lemma run_script : run w = (terminate (fst (script w (initial w))),
                            snd (script w (initial w))).
Proof. unfold run. now destruct (script w (initial w)). Qed.

(** [os.chdir] is outside the [try]: whatever it raises goes up. *)
Lemma script_chdir_raises e :
  chdir_result w (script_dir w) = Some e ->
  script w (initial w) = (Raise e, initial w).
Proof. intros C. unfold script, bind, os_chdir. now rewrite C. Qed.

(** The constructor raises, its socket closed: the [with] block is
    never entered. *)
Lemma script_bind_raises e :
  chdir_result w (script_dir w) = None ->
  bind_result w ("", PORT) = Some e ->
  script w (initial w) = handled e refused.
Proof.
  intros C B. unfold script, bind, os_chdir, try_except, with_, bind, TCPServer.
  rewrite C, B. destruct e as [|code|msg|name]; try reflexivity.
  cbn. now destruct (contains _ msg).
Qed.

(** The listener is up: the banner, the browser, the loop; what ends
    the loop passes through [__exit__] and reaches the clauses. *)
Lemma script_serves :
  starts w ->
  script w (initial w)
  = match serve_result w with
    | None => (Diverge,
               mkProcess (script_dir w) (Some ("", PORT)) (banner w ++ answers w))
    | Some e => handled e (mkProcess (script_dir w) None
                             (banner w ++ answers w ++ [EClose]))
    end.
Proof.
  intros [C B].
  unfold script, bind, os_chdir, try_except, with_, bind, TCPServer.
  rewrite C, B. unfold webbrowser_open, serve_forever. cbn.
  destruct (browser_result w _); cbn;
    (destruct (serve_result w) as [[|code|msg|name]|]; cbn; try reflexivity;
     now destruct (contains _ msg)).
Qed.

(** A handler adds at most one printed line and touches nothing else. *)
Lemma handled_log e p :
  cwd (snd (handled e p)) = cwd p
  /\ socket (snd (handled e p)) = socket p
  /\ (log (snd (handled e p)) = log p
      \/ exists line, log (snd (handled e p)) = (log p ++ [EPrint line])%list).
Proof.
  destruct e as [|code|msg|name]; cbn; auto.
  - repeat split. right. now exists stop_notice.
  - destruct (contains _ msg); cbn; auto.
    repeat split. right. now exists port_diagnostic.
Qed.

(** The three shapes of a log. *)
Lemma run_log :
  (chdir_result w (script_dir w) <> None /\ log (snd (run w)) = [])
  \/ (bind_result w ("", PORT) <> None
      /\ exists tail, log (snd (run w)) = EChdir (script_dir w) :: tail
                   /\ forallb (fun e => negb (is_listen e || is_browser e
                                              || is_serve e || is_send e)) tail
                      = true)
  \/ (starts w
      /\ exists tail, log (snd (run w)) = (banner w ++ answers w ++ tail)%list
                      /\ forallb (fun e => negb (is_listen e || is_browser e
                                                 || is_serve e || is_send e)) tail
                         = true).
Proof.
  rewrite run_script.
  destruct (chdir_result w (script_dir w)) as [e|] eqn:C.
  { left. now rewrite (script_chdir_raises e C). }
  destruct (bind_result w ("", PORT)) as [e|] eqn:B.
  { right; left. split; [discriminate|].
    rewrite (script_bind_raises e C B). cbn [snd].
    destruct (handled_log e refused) as (_ & _ & [-> | [line ->]]).
    - now exists [EClose].
    - now exists [EClose; EPrint line]. }
  right; right. split; [now split|]. rewrite (script_serves (conj C B)).
  destruct (serve_result w) as [e|]; cbn [snd].
  - destruct (handled_log e (mkProcess (script_dir w) None
                               (banner w ++ answers w ++ [EClose])))
      as (_ & _ & [-> | [line ->]]); cbn [log].
    + now exists [EClose].
    + exists [EClose; EPrint line]. split; [|reflexivity].
      now rewrite <- !app_assoc.
  - exists []. cbn [snd log]. now rewrite app_nil_r.
Qed.

End Runs.

Lemma closing_tail (tail : list event) (e : event) :
  forallb (fun e => negb (is_listen e || is_browser e || is_serve e || is_send e))
          tail = true ->
  In e tail ->
  is_listen e = false /\ is_browser e = false
  /\ is_serve e = false /\ is_send e = false.
Proof.
  intros F I. rewrite forallb_forall in F. specialize (F e I).
  now destruct e.
Qed.

(** Whatever the log holds as sent was written by [CORSRequestHandler]
    for a request that came in, out of the directory of the script. *)
Lemma sent_by_the_handler (w : World) (req : request) (bytes : string) :
  In (ESend req bytes) (log (snd (run w))) ->
  In req (incoming w)
  /\ bytes = handle_one_request CORSRequestHandler (http_env w) (script_dir w) req.
Proof.
  destruct (run_log w) as [(_ & ->) | [(_ & tail & -> & T) | (_ & tail & -> & T)]].
  - intros [].
  - intros [E | I]; [discriminate|].
    now destruct (closing_tail _ _ T I) as (_ & _ & _ & ?).
  - intros I. apply in_app_or in I. destruct I as [I | I].
    { cbn in I. repeat (destruct I as [I | I]; [discriminate|]). destruct I. }
    apply in_app_or in I. destruct I as [I | I].
    + destruct (in_answers w _ I) as (req' & I' & E).
      injection E as -> ->. now split.
    + now destruct (closing_tail _ _ T I) as (_ & _ & _ & ?).
Qed.

Lemma render_add_nothing (r : response) : render (add_headers [] r) = render r.
Proof. unfold render, add_headers. cbn. now rewrite app_nil_r. Qed.

(* ----------------------------------------------------------------- *)
(** ** The isolation headers *)

(** C1, as the claim states it, fails: a request line without a
    protocol version is a request of HTTP/0.9, and the library answers
    it with the body alone.  The running server sends the file with no
    status line and no header, so neither isolation header is there. *)
Lemma simple_request_is_answered_without_headers :
  In (ESend Sample.simple_get "<html>Space Looter</html>")
     (log (snd (run Sample.old_client)))
  /\ contains "Cross-Origin-Embedder-Policy: require-corp"
              "<html>Space Looter</html>" = false
  /\ contains "Cross-Origin-Opener-Policy: same-origin"
              "<html>Space Looter</html>" = false.
Proof.
  repeat split. vm_compute. do 8 right. now left.
Qed.

(** C1, amended: for every response that has a header block.
    Every header block the handler ends goes out as the pending
    lines, then [Cross-Origin-Embedder-Policy: require-corp], then
    [Cross-Origin-Opener-Policy: same-origin], then the blank line: the
    two lines are constants, added whatever the path or the status.
    And every response the running server sends is the file server's
    response for the request with exactly these two headers added at
    the end of its header block.  (The request is one that gets a
    header block: for an HTTP/0.9 simple request the library writes no
    status line and no header at all.) *)
Theorem isolation_headers_on_every_response :
  (forall h : handler,
      request_version h <> "HTTP/0.9" ->
      headers_buffer (end_headers CORSRequestHandler h) = []
      /\ wfile (end_headers CORSRequestHandler h)
         = wfile h
           ++ String.concat ""
                (headers_buffer h
                 ++ [header_line "Cross-Origin-Embedder-Policy" "require-corp";
                     header_line "Cross-Origin-Opener-Policy" "same-origin";
                     CRLF])%list)
  /\ (forall (w : World) (req : request) (bytes : string),
         In (ESend req bytes) (log (snd (run w))) ->
         version req <> "HTTP/0.9" ->
         handle_one_request SimpleHTTPRequestHandler (http_env w) (script_dir w) req
         = render (standard_response (http_env w) (script_dir w) req)
         /\ bytes
            = render (add_headers isolation_headers
                        (standard_response (http_env w) (script_dir w) req))).
Proof.
  split.
  - intros h V.
    destruct (CORS_closes_with_isolation h (headers_buffer h) (wfile h))
      as (_ & B & W); [now split|].
    now split.
  - intros w req bytes I V.
    destruct (sent_by_the_handler w req bytes I) as (_ & ->). split.
    + rewrite (handle_one_request_renders _ [] _ _ _ V Simple_closes_plainly).
      apply render_add_nothing.
    + apply (handle_one_request_renders _ _ _ _ _ V CORS_closes_with_isolation).
Qed.

Lemma isolation_headers_on_every_response_witness :
  wfile (end_headers CORSRequestHandler
           (mkHandler "/index.html" "HTTP/1.1" "/srv/game"
                      [status_line 200 "OK"] true ""))
  = String.concat ""
      [status_line 200 "OK";
       header_line "Cross-Origin-Embedder-Policy" "require-corp";
       header_line "Cross-Origin-Opener-Policy" "same-origin";
       CRLF]
  /\ handle_one_request CORSRequestHandler Sample.env "/srv/game" Sample.missing
     = render (add_headers isolation_headers
                 (standard_response Sample.env "/srv/game" Sample.missing)).
Proof.
  assert (V : "HTTP/1.1" <> "HTTP/0.9") by discriminate.
  split.
  - exact (proj2 (proj1 isolation_headers_on_every_response
                    (mkHandler "/index.html" "HTTP/1.1" "/srv/game"
                               [status_line 200 "OK"] true "") V)).
  - refine (proj2 (proj2 isolation_headers_on_every_response
                     Sample.quiet Sample.missing _ _ V)).
    vm_compute. do 9 right. left. reflexivity.
Defined.

(** C6, as the claim states it, fails: the file exists and is
    readable, the request line names no protocol version, and the
    answer is the file's bytes alone, with no status line (so no 200)
    and no isolation header. *)
Lemma simple_request_for_a_file_has_no_status :
  open_rb Sample.env
          (translate_path Sample.env "/srv/game" (target Sample.simple_get))
  = Some "<html>Space Looter</html>"
  /\ handle_one_request CORSRequestHandler Sample.env "/srv/game" Sample.simple_get
     = "<html>Space Looter</html>"
  /\ String.prefix "HTTP/1.0 200"
        (handle_one_request CORSRequestHandler Sample.env "/srv/game"
                            Sample.simple_get) = false
  /\ contains "Cross-Origin"
        (handle_one_request CORSRequestHandler Sample.env "/srv/game"
                            Sample.simple_get) = false.
Proof. now repeat split. Qed.

(** C6, amended: for a request whose request line names a protocol
    version.  A request for a path that resolves to a readable file is
    answered 200, with the standard headers followed by the two
    isolation headers and the file's bytes as the body. *)
Theorem existing_file_served_200 (env : Env) (dir : string) (req : request)
  (content : string) :
  version req <> "HTTP/0.9" ->
  open_rb env (translate_path env dir (target req)) = Some content ->
  handle_one_request CORSRequestHandler env dir req
  = render
      (mkResponse 200 "OK"
         [("Server", version_string env);
          ("Date", date_time_string env);
          ("Content-type", guess_type env (translate_path env dir (target req)));
          ("Content-Length", str_int (len content));
          ("Last-Modified", last_modified env (translate_path env dir (target req)));
          ("Cross-Origin-Embedder-Policy", "require-corp");
          ("Cross-Origin-Opener-Policy", "same-origin")]
         content).
Proof.
  intros V F.
  rewrite (handle_one_request_renders _ _ _ _ _ V CORS_closes_with_isolation).
  unfold standard_response. now rewrite F.
Qed.

Lemma existing_file_served_200_witness :
  handle_one_request CORSRequestHandler Sample.env "/srv/game" Sample.index_html
  = render
      (mkResponse 200 "OK"
         [("Server", "SimpleHTTP/0.6 Python/3.12.3");
          ("Date", "Tue, 03 Nov 2026 10:00:00 GMT");
          ("Content-type", "text/html");
          ("Content-Length", "25");
          ("Last-Modified", "Mon, 02 Nov 2026 09:30:00 GMT");
          ("Cross-Origin-Embedder-Policy", "require-corp");
          ("Cross-Origin-Opener-Policy", "same-origin")]
         "<html>Space Looter</html>").
Proof.
  apply (existing_file_served_200 Sample.env "/srv/game" Sample.index_html
           "<html>Space Looter</html>").
  - discriminate.
  - reflexivity.
Defined.

(** C7, as the claim states it, fails: nothing is at the path, the
    request line names no protocol version, and the answer is the
    error page alone, with no status line (so no 404 status) and no
    isolation header. *)
Lemma simple_request_for_nothing_has_no_status :
  open_rb Sample.env
          (translate_path Sample.env "/srv/game" (target Sample.simple_missing))
  = None
  /\ handle_one_request CORSRequestHandler Sample.env "/srv/game"
                        Sample.simple_missing
     = error_page Sample.env 404 "File not found"
  /\ String.prefix "HTTP/1.0 404"
        (handle_one_request CORSRequestHandler Sample.env "/srv/game"
                            Sample.simple_missing) = false
  /\ contains "Cross-Origin"
        (handle_one_request CORSRequestHandler Sample.env "/srv/game"
                            Sample.simple_missing) = false.
Proof. now repeat split. Qed.

(** C7, amended: for a request whose request line names a protocol
    version.  A request for a path that does not resolve to a file that
    opens is answered 404, and the two isolation headers are in that
    header block as well. *)
Theorem missing_file_answered_404 (env : Env) (dir : string) (req : request) :
  version req <> "HTTP/0.9" ->
  open_rb env (translate_path env dir (target req)) = None ->
  handle_one_request CORSRequestHandler env dir req
  = render
      (mkResponse 404 "File not found"
         [("Server", version_string env);
          ("Date", date_time_string env);
          ("Connection", "close");
          ("Content-Type", "text/html;charset=utf-8");
          ("Content-Length", str_int (len (error_page env 404 "File not found")));
          ("Cross-Origin-Embedder-Policy", "require-corp");
          ("Cross-Origin-Opener-Policy", "same-origin")]
         (error_page env 404 "File not found")).
Proof.
  intros V F.
  rewrite (handle_one_request_renders _ _ _ _ _ V CORS_closes_with_isolation).
  unfold standard_response. now rewrite F.
Qed.

Lemma missing_file_answered_404_witness :
  handle_one_request CORSRequestHandler Sample.env "/srv/game" Sample.missing
  = render
      (mkResponse 404 "File not found"
         [("Server", "SimpleHTTP/0.6 Python/3.12.3");
          ("Date", "Tue, 03 Nov 2026 10:00:00 GMT");
          ("Connection", "close");
          ("Content-Type", "text/html;charset=utf-8");
          ("Content-Length", "27");
          ("Cross-Origin-Embedder-Policy", "require-corp");
          ("Cross-Origin-Opener-Policy", "same-origin")]
         "<h1>404 File not found</h1>").
Proof.
  apply (missing_file_answered_404 Sample.env "/srv/game" Sample.missing).
  - discriminate.
  - reflexivity.
Defined.

(* ----------------------------------------------------------------- *)
(** ** The two recognised failures *)

(** C2, as the claim states it, fails: the port is taken and the
    operating system reports it in words other than "Address already
    in use" (here as Windows does); line 41 does not find its text,
    line 45 raises the error again, and the process ends with the
    interpreter's report and no diagnostic. *)
Lemma bind_conflict_in_other_words_gets_no_diagnostic :
  chdir_result Sample.port_taken_windows (script_dir Sample.port_taken_windows)
  = None
  /\ bind_result Sample.port_taken_windows ("", PORT)
     = Some (OSError "[WinError 10048] Only one usage of each socket address (protocol/network address/port) is normally permitted")
  /\ fst (run Sample.port_taken_windows)
     = Traceback (OSError "[WinError 10048] Only one usage of each socket address (protocol/network address/port) is normally permitted")
  /\ fst (run Sample.port_taken_windows) <> Exited 1
  /\ stdout (log (snd (run Sample.port_taken_windows))) = [].
Proof. repeat split. vm_compute. discriminate. Qed.

(** C2, amended.  When the constructor fails with an [OSError] whose
    message contains "Address already in use", the wording of a taken
    port on POSIX systems, the script prints the diagnostic, which
    names port 8080, and the process exits with code 1; nothing else
    was printed and no socket is left. *)
Theorem port_in_use_exits_with_1 (w : World) (msg : string) :
  chdir_result w (script_dir w) = None ->
  bind_result w ("", PORT) = Some (OSError msg) ->
  occurs_in "Address already in use" msg ->
  run w = (Exited 1,
           mkProcess (script_dir w) None
                     [EChdir (script_dir w); EClose; EPrint port_diagnostic])
  /\ occurs_in ("Port " ++ str_int PORT) port_diagnostic.
Proof.
  intros C B A. apply contains_iff in A. split.
  - rewrite run_script, (script_bind_raises w _ C B).
    cbn [handled]. now rewrite A.
  - now apply contains_iff.
Qed.

Lemma port_in_use_exits_with_1_witness :
  run Sample.port_taken
  = (Exited 1,
     mkProcess "/srv/game" None
       [EChdir "/srv/game";
        EClose;
        EPrint "❌ Port 8080 is already in use. Try a different port or stop the existing server."]).
Proof.
  refine (proj1 (port_in_use_exits_with_1 Sample.port_taken
                   "[Errno 98] Address already in use"
                   eq_refl eq_refl _)).
  now exists "[Errno 98] ", "".
Defined.

(** C3.  When Ctrl+C ends the serving loop, the listening socket is
    closed first, then the shutdown notice is printed, and the process
    exits with code 0. *)
Theorem interrupt_exits_with_0 (w : World) :
  starts w ->
  serve_result w = Some KeyboardInterrupt ->
  run w = (Exited 0,
           mkProcess (script_dir w) None
                     (banner w ++ answers w ++ [EClose; EPrint stop_notice])).
Proof.
  intros S K. rewrite run_script, (script_serves w S), K.
  unfold handled, emit. cbn [fst snd terminate cwd socket log].
  now rewrite <- !app_assoc.
Qed.

Lemma interrupt_exits_with_0_witness :
  fst (run Sample.interrupted) = Exited 0
  /\ socket (snd (run Sample.interrupted)) = None
  /\ stdout (log (snd (run Sample.interrupted)))
     = ["🌐 Server starting at http://localhost:8080";
        "📁 Serving files from: /srv/game";
        "🎮 Open http://localhost:8080 in your browser to play!";
        "⏹️  Press Ctrl+C to stop the server";
        stop_notice].
Proof.
  rewrite (interrupt_exits_with_0 Sample.interrupted (conj eq_refl eq_refl) eq_refl).
  repeat split.
Defined.

(** C4.  Whatever the browser launch raises, the run is the run of the
    same world with a launch that succeeds: same output, same
    responses, same end. *)
Theorem browser_failure_is_swallowed (w : World) (e : exn) :
  browser_result w ("http://localhost:" ++ str_int PORT) = Some e ->
  run w = run (with_browser None w).
Proof.
  intros _. rewrite !run_script.
  destruct (chdir_result w (script_dir w)) as [c|] eqn:C.
  { now rewrite !(script_chdir_raises _ c). }
  destruct (bind_result w ("", PORT)) as [b|] eqn:B.
  { now rewrite !(script_bind_raises _ b). }
  now rewrite !script_serves by now split.
Qed.

Lemma browser_failure_is_swallowed_witness :
  run Sample.no_browser = run Sample.quiet.
Proof.
  exact (browser_failure_is_swallowed Sample.no_browser
           (Exception "webbrowser.Error") eq_refl).
Defined.

(* ----------------------------------------------------------------- *)
(** ** Everything else that can go wrong at the start *)

(** C5, as the claim states it, fails: an exception raised while the
    browser is launched is a startup exception, it is neither
    [KeyboardInterrupt] nor the port-in-use [OSError], and the bare
    [except:] of line 33 handles it; the server goes on to serve. *)
Lemma browser_exception_is_handled :
  raised_at_startup Sample.no_browser (Exception "webbrowser.Error")
  /\ recognised (Exception "webbrowser.Error") = false
  /\ fst (script Sample.no_browser (initial Sample.no_browser))
     <> Raise (Exception "webbrowser.Error")
  /\ fst (run Sample.no_browser) = Running.
Proof.
  repeat split.
  - right; right. now repeat split.
  - vm_compute. discriminate.
Qed.

(** C5, amended.  Every exception raised while the directory is
    changed or the listener is bound, other than [KeyboardInterrupt]
    and the port-in-use [OSError], leaves the script as it was raised:
    nothing is printed, no listener is left or tried again, and the
    interpreter reports it. *)
Theorem other_startup_exceptions_propagate (w : World) (e : exn) :
  raised_before_listening w e ->
  recognised e = false ->
  fst (script w (initial w)) = Raise e
  /\ stdout (log (snd (run w))) = []
  /\ existsb is_listen (log (snd (run w))) = false
  /\ socket (snd (run w)) = None
  /\ ((forall code, e <> SystemExit code) -> fst (run w) = Traceback e).
Proof.
  intros R N. rewrite run_script.
  assert (H : exists p, script w (initial w) = (Raise e, p)
                        /\ stdout (log p) = [] /\ existsb is_listen (log p) = false
                        /\ socket p = None).
  { destruct R as [C | [C B]].
    - exists (initial w). now rewrite (script_chdir_raises w e C).
    - exists (mkProcess (script_dir w) None [EChdir (script_dir w); EClose]).
      rewrite (script_bind_raises w e C B). split; [|now repeat split].
      destruct e as [|code|msg|name]; try discriminate; try reflexivity.
      cbn in N |- *. now rewrite N. }
  destruct H as (p & -> & O & L & S). cbn [fst snd]. repeat split; trivial.
  intros X. destruct e; try reflexivity. now elim (X code).
Qed.

Lemma other_startup_exceptions_propagate_witness :
  fst (run Sample.port_denied) = Traceback (OSError "[Errno 13] Permission denied").
Proof.
  refine (proj2 (proj2 (proj2 (proj2
            (other_startup_exceptions_propagate Sample.port_denied
               (OSError "[Errno 13] Permission denied") _ eq_refl)))) _).
  - right. now split.
  - discriminate.
Defined.

(** C10.  An [OSError] that reaches the clause takes the port-conflict
    path (the diagnostic and exit code 1) exactly when its message
    contains "Address already in use"; with any other wording, a
    bind conflict reported in other words included, it is raised again
    and the interpreter reports it, with no diagnostic. *)
Theorem port_conflict_path_iff_substring (w : World) (msg : string) :
  caught_OSError w msg ->
  ((fst (run w) = Exited 1 /\ In port_diagnostic (stdout (log (snd (run w)))))
   <-> occurs_in "Address already in use" msg)
  /\ (~ occurs_in "Address already in use" msg ->
      fst (run w) = Traceback (OSError msg)
      /\ ~ In port_diagnostic (stdout (log (snd (run w))))).
Proof.
  intros (C & R). rewrite run_script.
  rewrite <- contains_false_iff, <- contains_iff.
  assert (H : exists p, script w (initial w) = handled (OSError msg) p
                        /\ ~ In port_diagnostic (stdout (log p))).
  { destruct R as [B | [B S]].
    - exists (mkProcess (script_dir w) None [EChdir (script_dir w); EClose]).
      rewrite (script_bind_raises w _ C B). split; [reflexivity|].
      cbn. tauto.
    - exists (mkProcess (script_dir w) None (banner w ++ answers w ++ [EClose])).
      rewrite (script_serves w (conj C B)), S. split; [reflexivity|].
      cbn [log]. rewrite !stdout_app, stdout_answers. cbn.
      intros I. repeat (destruct I as [I | I]; [discriminate|]). destruct I. }
  destruct H as (p & -> & O). cbn [handled].
  destruct (contains _ msg); cbn [fst snd terminate log emit].
  - split; [|discriminate]. split; [reflexivity|]. intros _. split; [reflexivity|].
    rewrite stdout_app. apply in_or_app. right. now left.
  - split; [|now split]. split; [|discriminate]. now intros [? _].
Qed.

Lemma port_conflict_path_iff_substring_witness :
  fst (run Sample.port_taken) = Exited 1
  /\ fst (run Sample.port_denied) = Traceback (OSError "[Errno 13] Permission denied").
Proof.
  split.
  - apply (proj1 (port_conflict_path_iff_substring Sample.port_taken
                    "[Errno 98] Address already in use"
                    (conj eq_refl (or_introl eq_refl)))).
    now exists "[Errno 98] ", "".
  - apply (proj2 (port_conflict_path_iff_substring Sample.port_denied
                    "[Errno 13] Permission denied"
                    (conj eq_refl (or_introl eq_refl)))).
    now apply contains_false_iff.
Defined.

(* ----------------------------------------------------------------- *)
(** ** Where the server listens and what it serves *)

(** C8.  Whatever listener the process opens is on port 8080 with the
    empty host, which is every interface, and a start that succeeds
    does open it; every response is computed from the directory of the
    script; and neither the command line nor the environment changes
    anything of the run. *)
Theorem fixed_port_and_document_root (w : World) :
  (forall address,
      In (EListen address) (log (snd (run w))) -> address = ("", 8080%Z))
  /\ (starts w ->
      In (EChdir (script_dir w)) (log (snd (run w)))
      /\ In (EListen ("", 8080%Z)) (log (snd (run w)))
      /\ cwd (snd (run w)) = script_dir w)
  /\ (forall req bytes,
         In (ESend req bytes) (log (snd (run w))) ->
         bytes = handle_one_request CORSRequestHandler (http_env w)
                                    (script_dir w) req)
  /\ (forall args vars, run (with_cli args vars w) = run w)
  /\ run (with_bind (bind_result w ("", 8080%Z)) w) = run w.
Proof.
  split; [|split; [|split; [|split]]].
  - intros address.
    destruct (run_log w) as [(_ & ->) | [(_ & tail & -> & T) | (_ & tail & -> & T)]].
    + intros [].
    + intros [E | I]; [discriminate|].
      now destruct (closing_tail _ _ T I) as (? & _).
    + intros I. apply in_app_or in I. destruct I as [I | I].
      { cbn in I. destruct I as [E | [E | I]]; [discriminate | now injection E |].
        repeat (destruct I as [I | I]; [discriminate|]). destruct I. }
      apply in_app_or in I. destruct I as [I | I].
      * destruct (in_answers w _ I) as (req & _ & E). discriminate.
      * now destruct (closing_tail _ _ T I) as (? & _).
  - intros S. rewrite run_script, (script_serves w S).
    destruct (serve_result w) as [e|]; cbn [snd].
    + destruct (handled_log e (mkProcess (script_dir w) None
                                 (banner w ++ answers w ++ [EClose])))
        as (-> & _ & [-> | [line ->]]); cbn; auto.
    + cbn. auto.
  - intros req bytes I. apply (sent_by_the_handler w req bytes I).
  - reflexivity.
  - reflexivity.
Qed.

Lemma fixed_port_and_document_root_witness :
  In (EListen ("", 8080%Z)) (log (snd (run Sample.quiet)))
  /\ cwd (snd (run Sample.quiet)) = "/srv/game".
Proof.
  destruct (proj1 (proj2 (fixed_port_and_document_root Sample.quiet))
              (conj eq_refl eq_refl)) as (_ & L & D).
  exact (conj L D).
Defined.

(* ----------------------------------------------------------------- *)
(** ** The order of the start *)

(** C9.  In every run the listener is bound only after the working
    directory is changed, the browser is launched only after the
    listener is up, the serving loop is entered only after the launch
    has been tried, and a response is sent only from the loop; a start
    in which both the directory change and the binding succeed goes
    through all of these, in this order. *)
Theorem startup_steps_in_order (w : World) :
  precedes is_chdir is_listen (log (snd (run w)))
  /\ precedes is_listen is_browser (log (snd (run w)))
  /\ precedes is_browser is_serve (log (snd (run w)))
  /\ precedes is_serve is_send (log (snd (run w)))
  /\ (starts w -> exists rest, log (snd (run w)) = (banner w ++ rest)%list).
Proof.
  destruct (run_log w) as [(C & ->) | [(B & tail & -> & T) | (S & tail & -> & T)]].
  - repeat split; try apply precedes_nil. now intros [? _].
  - pose proof (fun e => closing_tail tail e T) as N.
    repeat split; in_order; try (apply precedes_absent; intros e I; now apply N).
    now intros [_ ?].
  - repeat split; cbn [banner app]; in_order.
    intros _. now exists (answers w ++ tail)%list.
Qed.

Lemma startup_steps_in_order_witness :
  exists rest,
    log (snd (run Sample.quiet))
    = ([EChdir "/srv/game";
        EListen ("", 8080%Z);
        EPrint "🌐 Server starting at http://localhost:8080";
        EPrint "📁 Serving files from: /srv/game";
        EPrint "🎮 Open http://localhost:8080 in your browser to play!";
        EPrint "⏹️  Press Ctrl+C to stop the server";
        EBrowser "http://localhost:8080";
        EServe] ++ rest)%list.
Proof.
  exact (proj2 (proj2 (proj2 (proj2 (startup_steps_in_order Sample.quiet))))
           (conj eq_refl eq_refl)).
Defined.

(* ================================================================= *)
(** * Further properties of the script and of the handler *)

(** What each clause makes of an exception, class by class. *)
Lemma handled_cases (e : exn) (p : process) :
  (e = KeyboardInterrupt
   /\ handled e p = (Raise (SystemExit 0), emit (EPrint stop_notice) p))
  \/ (exists msg, e = OSError msg
                  /\ contains "Address already in use" msg = true
                  /\ handled e p = (Raise (SystemExit 1),
                                    emit (EPrint port_diagnostic) p))
  \/ (recognised e = false /\ handled e p = (Raise e, p)).
Proof.
  destruct e as [|code|msg|name]; cbn; auto.
  destruct (contains _ msg) eqn:A; [|auto].
  right; left. now exists msg.
Qed.

(** Every run is one of four: the directory change fails, the
    constructor fails, the loop runs for ever, the loop is ended. *)
Lemma run_cases (w : World) :
  (exists e, chdir_result w (script_dir w) = Some e
             /\ run w = (terminate (@Raise unit e), initial w))
  \/ (exists e, chdir_result w (script_dir w) = None
                /\ bind_result w ("", PORT) = Some e
                /\ run w
                   = (terminate (fst (handled e (mkProcess (script_dir w) None
                                          [EChdir (script_dir w); EClose]))),
                      snd (handled e (mkProcess (script_dir w) None
                                        [EChdir (script_dir w); EClose]))))
  \/ (starts w /\ serve_result w = None
      /\ run w = (Running,
                  mkProcess (script_dir w) (Some ("", 8080%Z))
                            (banner w ++ answers w)))
  \/ (exists e, starts w /\ serve_result w = Some e
                /\ run w
                   = (terminate (fst (handled e (mkProcess (script_dir w) None
                                       (banner w ++ answers w ++ [EClose])))),
                      snd (handled e (mkProcess (script_dir w) None
                                        (banner w ++ answers w ++ [EClose]))))).
Proof.
  rewrite run_script.
  destruct (chdir_result w (script_dir w)) as [e|] eqn:C.
  { left. exists e. now rewrite (script_chdir_raises w e C). }
  destruct (bind_result w ("", PORT)) as [e|] eqn:B.
  { right; left. exists e. now rewrite (script_bind_raises w e C B). }
  right; right. rewrite (script_serves w (conj C B)).
  destruct (serve_result w) as [e|].
  - right. exists e. now repeat split.
  - left. now repeat split.
Qed.

Lemma stdout_banner (w : World) :
  stdout (banner w ++ answers w) = status_lines (script_dir w).
Proof. rewrite stdout_app, stdout_answers. reflexivity. Qed.

Lemma existsb_answers (w : World) (kind : event -> bool) :
  (forall req bytes, kind (ESend req bytes) = false) ->
  existsb kind (answers w) = false.
Proof.
  intros K. unfold answers. induction (incoming w) as [|req rest IH]; [reflexivity|].
  cbn. now rewrite K, IH.
Qed.

Lemma filter_browser_answers (w : World) : filter is_browser (answers w) = [].
Proof. unfold answers. now induction (incoming w). Qed.

(* ----------------------------------------------------------------- *)
(** ** Failures outside the two clauses *)

(** X1.  [os.chdir] stands before the [try]: when it raises, the
    process ends where it was started, with nothing printed and no
    listener, and the exception is reported by the interpreter even
    when it is one the clauses below would have recognised. *)
Theorem chdir_failure_ends_the_process (w : World) (e : exn) :
  chdir_result w (script_dir w) = Some e ->
  snd (run w) = mkProcess (initial_cwd w) None []
  /\ fst (run w) = terminate (@Raise unit e)
  /\ (recognised e = true -> fst (run w) = Traceback e).
Proof.
  intros C. rewrite run_script, (script_chdir_raises w e C).
  repeat split. intros R. destruct e; try reflexivity; discriminate.
Qed.

Lemma chdir_failure_ends_the_process_witness :
  run Sample.no_directory
  = (Traceback (OSError "[Errno 2] No such file or directory"),
     mkProcess "/home/dev" None []).
Proof.
  destruct (chdir_failure_ends_the_process Sample.no_directory
              (OSError "[Errno 2] No such file or directory") eq_refl)
    as (P & T & _).
  rewrite (surjective_pairing (run Sample.no_directory)), P, T. reflexivity.
Defined.

(** X2.  Ctrl+C while the constructor binds is caught by the same
    clause as Ctrl+C while serving: the constructor closes the socket
    it had created, the shutdown notice is the only line printed,
    although no server was started, and the process exits with
    code 0. *)
Theorem interrupt_while_binding (w : World) :
  chdir_result w (script_dir w) = None ->
  bind_result w ("", PORT) = Some KeyboardInterrupt ->
  run w = (Exited 0,
           mkProcess (script_dir w) None
                     [EChdir (script_dir w); EClose; EPrint stop_notice]).
Proof.
  intros C B. now rewrite run_script, (script_bind_raises w _ C B).
Qed.

Lemma interrupt_while_binding_witness :
  fst (run Sample.interrupted_early) = Exited 0
  /\ stdout (log (snd (run Sample.interrupted_early))) = [stop_notice].
Proof.
  rewrite (interrupt_while_binding Sample.interrupted_early eq_refl eq_refl).
  now split.
Defined.

(** X3.  An exception that ends the serving loop and is neither
    [KeyboardInterrupt] nor the port-in-use [OSError] leaves the [with]
    block first, which closes the listener, and then the script: the
    log ends with the close, neither the notice nor the diagnostic is
    printed, and the interpreter reports the exception. *)
Theorem error_while_serving_closes_the_listener (w : World) (e : exn) :
  starts w ->
  serve_result w = Some e ->
  recognised e = false ->
  snd (run w)
  = mkProcess (script_dir w) None (banner w ++ answers w ++ [EClose])
  /\ stdout (log (snd (run w))) = status_lines (script_dir w)
  /\ fst (run w) = terminate (@Raise unit e)
  /\ ((forall code, e <> SystemExit code) -> fst (run w) = Traceback e).
Proof.
  intros S E N. rewrite run_script, (script_serves w S), E.
  destruct (handled_cases e (mkProcess (script_dir w) None
                               (banner w ++ answers w ++ [EClose])))
    as [(-> & _) | [(msg & -> & A & _) | (_ & ->)]].
  - discriminate.
  - cbn in N. congruence.
  - cbn [fst snd log]. repeat split.
    + rewrite app_assoc, stdout_app, stdout_banner. apply app_nil_r.
    + intros X. destruct e; try reflexivity. now elim (X code).
Qed.

Lemma error_while_serving_closes_the_listener_witness :
  fst (run Sample.loop_broken) = Traceback (OSError "[Errno 9] Bad file descriptor")
  /\ socket (snd (run Sample.loop_broken)) = None.
Proof.
  destruct (error_while_serving_closes_the_listener Sample.loop_broken
              (OSError "[Errno 9] Bad file descriptor")
              (conj eq_refl eq_refl) eq_refl eq_refl)
    as (P & _ & _ & T).
  split; [apply T; discriminate | now rewrite P].
Defined.

(* ----------------------------------------------------------------- *)
(** ** The listener *)

Lemma terminate_raise (e : exn) : terminate (@Raise unit e) <> Running.
Proof. destruct e; discriminate. Qed.

Lemma handled_raises (e : exn) (p : process) :
  exists e', fst (handled e p) = Raise e'.
Proof.
  destruct e as [|code|msg|name]; cbn; eauto.
  destruct (contains _ msg); cbn; eauto.
Qed.

(** X4.  The listening socket is open exactly while the process is
    serving: the process is running if and only if it holds the socket
    on port 8080; a process that has ended, by either exit or by any
    exception, holds no socket, and a listener it had opened has been
    closed; nothing is closed while it runs. *)
Theorem listener_is_open_only_while_serving (w : World) :
  (fst (run w) = Running <-> socket (snd (run w)) = Some ("", 8080%Z))
  /\ (fst (run w) <> Running -> socket (snd (run w)) = None)
  /\ (fst (run w) <> Running ->
      existsb is_listen (log (snd (run w))) = true ->
      existsb is_close (log (snd (run w))) = true)
  /\ (fst (run w) = Running -> existsb is_close (log (snd (run w))) = false).
Proof.
  assert (H : (fst (run w) = Running
               /\ socket (snd (run w)) = Some ("", 8080%Z)
               /\ existsb is_close (log (snd (run w))) = false)
              \/ (fst (run w) <> Running
                  /\ socket (snd (run w)) = None
                  /\ (existsb is_listen (log (snd (run w))) = true ->
                      existsb is_close (log (snd (run w))) = true))).
  { destruct (run_cases w)
      as [(e & C & ->) | [(e & C & B & ->) | [(S & N & ->) | (e & S & N & ->)]]];
      cbn [fst snd].
    - right. repeat split; [apply terminate_raise | discriminate].
    - right.
      destruct (handled_raises e (mkProcess (script_dir w) None
                                   [EChdir (script_dir w); EClose]))
        as [e' ->].
      destruct (handled_log e (mkProcess (script_dir w) None
                                 [EChdir (script_dir w); EClose]))
        as (_ & -> & [-> | [line ->]]);
        repeat split; apply terminate_raise.
    - left. repeat split. cbn. now apply existsb_answers.
    - right.
      destruct (handled_raises e (mkProcess (script_dir w) None
                                   (banner w ++ answers w ++ [EClose])))
        as [e' ->].
      destruct (handled_log e (mkProcess (script_dir w) None
                                 (banner w ++ answers w ++ [EClose])))
        as (_ & -> & [-> | [line ->]]);
        (split; [apply terminate_raise|]); (split; [reflexivity|]);
        intros _; cbn [log]; rewrite ?app_assoc, !existsb_app; cbn;
        now rewrite ?orb_true_r. }
  destruct H as [(R & S & X) | (R & S & X)]; rewrite S.
  - rewrite R. repeat split; easy.
  - repeat split; easy.
Qed.

Lemma listener_is_open_only_while_serving_witness :
  socket (snd (run Sample.quiet)) = Some ("", 8080%Z)
  /\ socket (snd (run Sample.loop_broken)) = None.
Proof.
  split.
  - now apply (proj1 (listener_is_open_only_while_serving Sample.quiet)).
  - apply (proj1 (proj2 (listener_is_open_only_while_serving Sample.loop_broken))).
    discriminate.
Defined.

(* ----------------------------------------------------------------- *)
(** ** The terminal, the browser and the directory of the start *)

(** X6.  A status line on the terminal means a bound listener:
    whichever directory the second line names, none of the four lines
    of lines 25 to 28 is printed in a run in which the directory
    change or the binding fails. *)
Theorem status_lines_announce_a_bound_server (w : World) (dir line : string) :
  In line (status_lines dir) ->
  In line (stdout (log (snd (run w)))) ->
  starts w.
Proof.
  intros L I.
  assert (N : line <> stop_notice /\ line <> port_diagnostic).
  { repeat (destruct L as [<- | L]; [split; discriminate|]). destruct L. }
  destruct (run_cases w)
    as [(e & C & R) | [(e & C & B & R) | [(S & _ & _) | (e & S & _ & _)]]];
    try assumption; rewrite R in I; cbn [snd] in I.
  - destruct I.
  - destruct (handled_cases e (mkProcess (script_dir w) None
                                 [EChdir (script_dir w); EClose]))
      as [(-> & H) | [(msg & -> & _ & H) | (_ & H)]];
      rewrite H in I; cbn [snd log emit app stdout In] in I;
      intuition congruence.
Qed.

Lemma status_lines_announce_a_bound_server_witness : starts Sample.interrupted.
Proof.
  apply (status_lines_announce_a_bound_server Sample.interrupted "/srv/game"
           "⏹️  Press Ctrl+C to stop the server").
  - do 3 right. now left.
  - vm_compute. do 3 right. now left.
Defined.

(** X7.  The browser is launched at most once in a run, at
    [http://localhost:8080] and nowhere else, and never in a run in
    which the directory change or the binding fails. *)
Theorem browser_is_launched_at_most_once (w : World) :
  (filter is_browser (log (snd (run w))) = []
   \/ filter is_browser (log (snd (run w))) = [EBrowser "http://localhost:8080"])
  /\ (~ starts w -> filter is_browser (log (snd (run w))) = []).
Proof.
  assert (F : forall e p,
             filter is_browser (log (snd (handled e p))) = filter is_browser (log p)).
  { intros e p. destruct (handled_log e p) as (_ & _ & [-> | [line ->]]);
      [reflexivity|]. rewrite filter_app. apply app_nil_r. }
  destruct (run_cases w)
    as [(e & C & ->) | [(e & C & B & ->) | [(S & N & ->) | (e & S & N & ->)]]];
    cbn [snd]; rewrite ?F; cbn [log].
  - split; [now left | reflexivity].
  - split; [now left | reflexivity].
  - split; [right | now intros []].
    rewrite filter_app, filter_browser_answers. reflexivity.
  - split; [right | now intros []].
    rewrite !filter_app, filter_browser_answers. reflexivity.
Qed.

Lemma browser_is_launched_at_most_once_witness :
  filter is_browser (log (snd (run Sample.port_taken))) = [].
Proof.
  apply (proj2 (browser_is_launched_at_most_once Sample.port_taken)).
  intros [_ B]. discriminate B.
Defined.

(** X8.  Once the directory change succeeds, the directory the process
    was started in has no part in the run: output, responses, final
    state and end are those of a start from any other directory. *)
Theorem launch_directory_is_irrelevant (w : World) (dir : string) :
  chdir_result w (script_dir w) = None ->
  run (with_initial_cwd dir w) = run w.
Proof.
  intros C. rewrite !run_script.
  destruct (bind_result w ("", PORT)) as [e|] eqn:B.
  - now rewrite (script_bind_raises w e C B),
                (script_bind_raises (with_initial_cwd dir w) e C B).
  - now rewrite (script_serves w (conj C B)),
                (script_serves (with_initial_cwd dir w) (conj C B)).
Qed.

Lemma launch_directory_is_irrelevant_witness :
  run (with_initial_cwd "/tmp" Sample.interrupted) = run Sample.interrupted.
Proof.
  exact (launch_directory_is_irrelevant Sample.interrupted "/tmp" eq_refl).
Defined.

(* ----------------------------------------------------------------- *)
(** ** What the override leaves alone *)


